(** * System endpoints of the Tasking Manager backend

    A shallow embedding of [server/api/system/general.py]: the four
    flask-restful resources [SystemDocsAPI], [SystemHeartbeatAPI],
    [SystemLanguagesAPI] and [SystemContactAdminRestAPI].

    The handlers are glue code around collaborators that live outside the
    file (the request, the application configuration, the settings
    service, the SMTP service, flask-swagger, the logger).  Each handler
    is embedded as a computation in a small exception-and-trace monad:
    the outcome is either a returned value or a raised exception, and the
    trace records, in order, every call made to the mail collaborator and
    to the logger. *)

From Stdlib Require Import ZArith String Ascii List.
From stdpp Require Import base option list strings gmap pretty.

Open Scope Z_scope.
Open Scope string_scope.

Set Warnings "-register-all".

(** ** Python values *)

(** The values a JSON body, a configuration entry or a swagger document
    can hold.  A float is carried by its [repr] text; a dict has string
    keys, as every dict decoded from JSON has. *)
Inductive pyval : Type :=
| PNone
| PBool (b : bool)
| PInt (n : Z)
| PFloat (repr : string)
| PStr (s : string)
| PList (l : list pyval)
| PDict (d : gmap string pyval).

(** [type(v).__name__] *)
Definition py_type_name (v : pyval) : string :=
  match v with
  | PNone => "NoneType"
  | PBool _ => "bool"
  | PInt _ => "int"
  | PFloat _ => "float"
  | PStr _ => "str"
  | PList _ => "list"
  | PDict _ => "dict"
  end.

(** ** Exceptions and outcomes *)

(** An instance of (a subclass of) [Exception]: its class name and the
    text [str(e)] gives. *)
Record exn : Type := Exn { exn_class : string; exn_str : string }.

Inductive outcome (A : Type) : Type :=
| Returns (a : A)
| Raises (e : exn).
Arguments Returns {A} a.
Arguments Raises {A} e.

(** ** Observable effects *)

(** The severities of Python's [logging]. *)
Inductive log_level : Type := DEBUG | INFO | WARNING | ERROR | CRITICAL.

Inductive event : Type :=
| EvSendMessage (to_address : pyval) (subject html_message text_message : string)
| EvLog (level : log_level) (msg : string).

(** ** The handler monad: an outcome together with the events emitted *)

Definition M (A : Type) : Type := (outcome A * list event)%type.

Definition ret {A} (a : A) : M A := (Returns a, []).

Definition raise {A} (e : exn) : M A := (Raises e, []).

Definition emit (ev : event) : M unit := (Returns tt, [ev]).

Definition lift {A} (o : outcome A) : M A := (o, []).

Definition bind {A B} (m : M A) (k : A → M B) : M B :=
  match m with
  | (Returns a, t1) => let '(r, t2) := k a in (r, (t1 ++ t2)%list)
  | (Raises e, t1) => (Raises e, t1)
  end.

(** [try: m  except Exception as e: h e] *)
Definition try_except {A} (m : M A) (h : exn → M A) : M A :=
  match m with
  | (Returns a, t1) => (Returns a, t1)
  | (Raises e, t1) => let '(r, t2) := h e in (r, (t1 ++ t2)%list)
  end.

(** The monad is used through stdpp's notations [x ← m; k] and [m;; k]. *)
#[global] Instance M_ret : MRet M := @ret.
#[global] Instance M_bind : MBind M := λ A B k m, bind m k.

(** ** The Python operations the handlers use *)

Definition AttributeError (v : pyval) (attr : string) : exn :=
  Exn "AttributeError"
      ("'" +:+ py_type_name v +:+ "' object has no attribute '" +:+ attr +:+ "'").

Definition KeyError (k : string) : exn :=
  Exn "KeyError" ("'" +:+ k +:+ "'").

Definition TypeError (msg : string) : exn := Exn "TypeError" msg.

Definition ValueError (msg : string) : exn := Exn "ValueError" msg.

Definition IndexError (msg : string) : exn := Exn "IndexError" msg.

(** [v.get(k)]: only a dict has the method; a missing key gives [None]. *)
Definition py_get (v : pyval) (k : string) : M pyval :=
  match v with
  | PDict d => ret (default PNone (d !! k))
  | _ => raise (AttributeError v "get")
  end.

(** [v[k]] for a string key [k]. *)
Definition py_getitem (v : pyval) (k : string) : M pyval :=
  match v with
  | PDict d =>
      match d !! k with
      | Some x => ret x
      | None => raise (KeyError k)
      end
  | PList _ => raise (TypeError "list indices must be integers or slices, not str")
  | PStr _ => raise (TypeError "string indices must be integers")
  | _ => raise (TypeError ("'" +:+ py_type_name v +:+ "' object is not subscriptable"))
  end.

(** [v[k] = x] for a string key [k]; the updated object is returned. *)
Definition py_setitem (v : pyval) (k : string) (x : pyval) : M pyval :=
  match v with
  | PDict d => ret (PDict (<[k := x]> d))
  | PList _ => raise (TypeError "list indices must be integers or slices, not str")
  | _ => raise (TypeError ("'" +:+ py_type_name v +:+
                           "' object does not support item assignment"))
  end.

(** [d[k]] on a mapping that is known to be a dict, such as
    [current_app.config]. *)
Definition dict_getitem (d : gmap string pyval) (k : string) : M pyval :=
  match d !! k with
  | Some x => ret x
  | None => raise (KeyError k)
  end.

Section Formatting.

(** [repr] of a list or of a dict, as CPython prints it.  It is used
    only when such a value is put in a replacement field. *)
Variable py_repr : pyval → string.

(** [format(v, "")], which is what a [{}] replacement field applies to
    its argument. *)
Definition py_str (v : pyval) : string :=
  match v with
  | PNone => "None"
  | PBool true => "True"
  | PBool false => "False"
  | PInt n => pretty n
  | PFloat r => r
  | PStr s => s
  | PList _ | PDict _ => py_repr v
  end.

End Formatting.

(** [tmpl.format(a1, ..., an)] for templates whose replacement fields are all
    the automatic-numbering field [{}].  Surplus arguments are ignored, a
    missing one is an [IndexError], and a brace that does not belong to a
    [{}] field is a [ValueError]. *)
Fixpoint str_format (tmpl : string) (args : list string) : outcome string :=
  match tmpl with
  | EmptyString => Returns EmptyString
  | String "{" (String "}" rest) =>
      match args with
      | a :: args' =>
          match str_format rest args' with
          | Returns s => Returns (a +:+ s)
          | Raises e => Raises e
          end
      | [] => Raises (IndexError
                "Replacement index out of range for positional args tuple")
      end
  | String "{" _ => Raises (ValueError "unsupported replacement field")
  | String "}" _ => Raises (ValueError "Single '}' encountered in format string")
  | String c rest =>
      match str_format rest args with
      | Returns s => Returns (String c s)
      | Raises e => Raises e
      end
  end.

(** ** Collaborators *)

(** What a flask-restful handler hands back: a body and a status code. *)
Record Response : Type := { payload : pyval; status : Z }.

(** The settings snapshot as this file sees it: an object with a
    [to_primitive()] method. *)
Record SettingsDTO : Type := { to_primitive : outcome pyval }.

(** Everything a handler reads from its surroundings during one request:
    - [request_get_json]: what [request.get_json()] does;
    - [authenticated_user_id]: [tm.authenticated_user_id];
    - [config]: [current_app.config];
    - [_send_message]: what [SMTPService._send_message] does once called
      with (to_address, subject, html_message, text_message);
    - [get_settings]: what [SettingsService.get_settings()] does;
    - [swagger]: what [swagger(current_app)] does. *)
Record Env : Type := {
  request_get_json : outcome pyval;
  authenticated_user_id : pyval;
  config : gmap string pyval;
  _send_message : pyval → string → string → string → outcome unit;
  get_settings : outcome SettingsDTO;
  swagger : outcome pyval;
}.

(** [current_app.logger.critical(msg)] *)
Definition logger_critical (msg : string) : M unit := emit (EvLog CRITICAL msg).

(** [SMTPService._send_message(to, subject, html, text)]: the call is
    recorded whether or not the collaborator then raises. *)
Definition SMTPService_send_message (env : Env)
    (to_address : pyval) (subject html_message text_message : string) : M unit :=
  emit (EvSendMessage to_address subject html_message text_message);;
  lift (_send_message env to_address subject html_message text_message).

(** [v[k1][k2] = x].  The inner object is mutated in place, and the outer
    one holds a reference to it, so the outer object sees the update. *)
Definition py_setitem2 (v : pyval) (k1 k2 : string) (x : pyval) : M pyval :=
  inner ← py_getitem v k1;
  inner' ← py_setitem inner k2 x;
  ret (match v with
       | PDict d => PDict (<[k1 := inner']> d)
       | _ => v
       end).

(** [jsonify(v)]: a JSON response with status 200. *)
Definition jsonify (v : pyval) : Response := {| payload := v; status := 200 |}.

(** ** The handlers *)

Definition nl : string := String "010" EmptyString.

(** The triple-quoted template of the contact message. *)
Definition contact_template : string :=
  "New contact from {} <{}> (UID: {})." +:+ nl +:+
  "                <p>{}</p>" +:+ nl +:+
  "                ".

Section Handlers.

Variable py_repr : pyval → string.
Variable env : Env.

(** [SystemDocsAPI.get] *)
Definition SystemDocsAPI_get : M Response :=
  swag ← lift (swagger env);
  swag ← py_setitem2 swag "info" "title" (PStr "Tasking Manager backend API");
  swag ← py_setitem2 swag "info" "description" (PStr "API endpoints for the backend");
  swag ← py_setitem2 swag "info" "version" (PStr "2.0.0");
  ret (jsonify swag).

(** [SystemHeartbeatAPI.get]: the method reads nothing of [env]. *)
Definition SystemHeartbeatAPI_get : M Response :=
  let _ := env in
  ret {| payload := PDict {[ "status" := PStr "healthy" ]}; status := 200 |}.

(** [SystemLanguagesAPI.get]: the [try] block, then the whole method. *)
Definition SystemLanguagesAPI_get_try : M Response :=
  languages ← lift (get_settings env);
  primitive ← lift (to_primitive languages);
  ret {| payload := primitive; status := 200 |}.

Definition SystemLanguagesAPI_get_except (e : exn) : M Response :=
  let error_msg := "Languages GET - unhandled error: " +:+ exn_str e in
  logger_critical error_msg;;
  ret {| payload := PDict {[ "Error" := PStr "Unable to fetch supported languages" ]};
         status := 500 |}.

Definition SystemLanguagesAPI_get : M Response :=
  try_except SystemLanguagesAPI_get_try SystemLanguagesAPI_get_except.

(** [SystemContactAdminRestAPI.post], below its decorators: the [try]
    block, the [except] clause, then the whole method.  The arguments of
    [format] are evaluated left to right, then those of
    [_send_message]. *)
Definition SystemContactAdminRestAPI_post_try : M Response :=
  data ← lift (request_get_json env);
  name ← py_get data "name";
  email ← py_get data "email";
  content ← py_get data "content";
  message ← lift (str_format contact_template
                     [py_str py_repr name;
                      py_str py_repr email;
                      py_str py_repr (authenticated_user_id env);
                      py_str py_repr content]);
  to_address ← dict_getitem (config env) "EMAIL_FROM_ADDRESS";
  SMTPService_send_message env to_address "Tasking Manager Contact" message message;;
  ret {| payload := PDict {[ "Success" := PStr "Email sent" ]}; status := 201 |}.

Definition SystemContactAdminRestAPI_post_except (e : exn) : M Response :=
  let error_msg := "Application GET API - unhandled error: " +:+ exn_str e in
  logger_critical error_msg;;
  ret {| payload := PDict {[ "Error" := PStr "Unable to fetch application keys" ]};
         status := 500 |}.

Definition SystemContactAdminRestAPI_post : M Response :=
  try_except SystemContactAdminRestAPI_post_try SystemContactAdminRestAPI_post_except.

End Handlers.

(** ** The decorators of the contact endpoint *)

Inductive auth_failure : Type := Unauthorized | Forbidden.

Definition auth_failure_status (f : auth_failure) : Z :=
  match f with
  | Unauthorized => 401
  | Forbidden => 403
  end.

(** What the session check makes of the request's [Authorization]
    header: the identity of the user, or a rejection and its body. *)
Inductive auth_result : Type :=
| Authenticated (user_id : Z)
| Rejected (f : auth_failure) (body : pyval).

Definition with_user (user_id : Z) (env : Env) : Env :=
  {| request_get_json := request_get_json env;
     authenticated_user_id := PInt user_id;
     config := config env;
     _send_message := _send_message env;
     get_settings := get_settings env;
     swagger := swagger env |}.

(** Modelled from the spec: the decorators [tm.pm_only(False)] and
    [token_auth.login_required] of [authentication_service], which is not
    part of this file.  The session check comes first; on a rejection the
    response is 401 or 403 and the decorated method is not entered; on
    success the user's identifier is stored in [tm.authenticated_user_id]
    and the method runs. *)
Definition login_required (handler : Env → M Response)
    (auth : auth_result) (env : Env) : M Response :=
  match auth with
  | Authenticated user_id => handler (with_user user_id env)
  | Rejected f body => ret {| payload := body; status := auth_failure_status f |}
  end.

(** [POST /contact-admin] as the routing layer reaches it. *)
Definition contact_admin_endpoint (py_repr : pyval → string) : auth_result → Env → M Response :=
  login_required (SystemContactAdminRestAPI_post py_repr).

(** ** Reading a trace *)

(** The calls made to the mail collaborator, in order, each with its
    four arguments. *)
Fixpoint send_calls (t : list event) : list (pyval * string * string * string) :=
  match t with
  | [] => []
  | EvSendMessage to_address subject html text :: t' =>
      (to_address, subject, html, text) :: send_calls t'
  | EvLog _ _ :: t' => send_calls t'
  end.

(** The messages logged at critical severity, in order. *)
Fixpoint critical_logs (t : list event) : list string :=
  match t with
  | [] => []
  | EvLog CRITICAL msg :: t' => msg :: critical_logs t'
  | _ :: t' => critical_logs t'
  end.

(** [needle] occurs in [hay]. *)
Definition contains (hay needle : string) : Prop :=
  ∃ pre post : string, hay = pre +:+ needle +:+ post.

(** The contact message once its four fields are filled in. *)
Definition contact_message (name email uid content : string) : string :=
  "New contact from " +:+ name +:+ " <" +:+ email +:+ "> (UID: " +:+ uid +:+ ")." +:+ nl +:+
  "                <p>" +:+ content +:+ "</p>" +:+ nl +:+
  "                ".

(** ** The fixed responses *)

Definition healthy : Response :=
  {| payload := PDict {[ "status" := PStr "healthy" ]}; status := 200 |}.

Definition languages_error : Response :=
  {| payload := PDict {[ "Error" := PStr "Unable to fetch supported languages" ]};
     status := 500 |}.

Definition email_sent : Response :=
  {| payload := PDict {[ "Success" := PStr "Email sent" ]}; status := 201 |}.

Definition contact_error : Response :=
  {| payload := PDict {[ "Error" := PStr "Unable to fetch application keys" ]};
     status := 500 |}.

Definition contact_subject : string := "Tasking Manager Contact".

(** ** The contact message of a body *)

(** The text a field of the body [d] contributes to the message. *)
Definition field_text (py_repr : pyval → string) (d : gmap string pyval) (k : string) : string :=
  py_str py_repr (default PNone (d !! k)).

(** The message composed from the body [d]. *)
Definition message_of (py_repr : pyval → string) (env : Env) (d : gmap string pyval) : string :=
  contact_message (field_text py_repr d "name") (field_text py_repr d "email")
    (py_str py_repr (authenticated_user_id env)) (field_text py_repr d "content").

(** The shapes a run of the [try] block of the contact handler can take:
    an exception before the mail collaborator is reached, an exception
    from the mail collaborator, or a sent message. *)
Inductive post_try_shape : M Response → Prop :=
| shape_before_send (e : exn) :
    post_try_shape (Raises e, [])
| shape_send_failed (to_address : pyval) (message : string) (e : exn) :
    post_try_shape
      (Raises e, [EvSendMessage to_address contact_subject message message])
| shape_sent (to_address : pyval) (message : string) :
    post_try_shape
      (Returns email_sent,
       [EvSendMessage to_address contact_subject message message]).

(** ** The API description document *)

(** [doc["info"][k]], when [doc] and [doc["info"]] are dicts. *)
Definition info_field (doc : pyval) (k : string) : option pyval :=
  match doc with
  | PDict d =>
      match d !! "info" with
      | Some (PDict info) => info !! k
      | _ => None
      end
  | _ => None
  end.

(** The document the docs handler builds when flask-swagger hands it a
    dict [d] whose ["info"] entry is the dict [info]. *)
Definition described (d info : gmap string pyval) : pyval :=
  PDict (<["info" :=
            PDict (<["version" := PStr "2.0.0"]>
                    (<["description" := PStr "API endpoints for the backend"]>
                      (<["title" := PStr "Tasking Manager backend API"]> info)))]> d).

(** ** Sample requests *)

Definition alice_body : gmap string pyval :=
  {[ "name" := PStr "Alice"; "email" := PStr "a@x.com"; "content" := PStr "Hi" ]}.

Definition body_without_content : gmap string pyval :=
  {[ "name" := PStr "Alice"; "email" := PStr "a@x.com" ]}.

Definition sample_repr (v : pyval) : string :=
  match v with
  | PList _ => "[...]"
  | PDict _ => "{...}"
  | _ => ""
  end.

Definition sample_settings : SettingsDTO :=
  {| to_primitive :=
       Returns (PDict {[ "mapperLevelIntermediate" := PInt 250;
                         "supportedLanguages" :=
                           PList [PDict {[ "code" := PStr "en";
                                           "language" := PStr "English" ]}] ]}) |}.

(** What flask-swagger puts in a fresh document. *)
Definition sample_swag : gmap string pyval :=
  {[ "swagger" := PStr "2.0";
     "info" := PDict {[ "version" := PStr "0.0.0"; "title" := PStr "Cool product name" ]} ]}.

Definition admin_address : pyval := PStr "admin@example.org".

(** Werkzeug's answer to a body that does not parse as JSON. *)
Definition BadRequest : exn :=
  Exn "BadRequest"
      "400 Bad Request: The browser (or proxy) sent a request that this server could not understand.".

Definition SMTPServerDisconnected : exn :=
  Exn "SMTPServerDisconnected" "Connection unexpectedly closed".

Definition OperationalError : exn :=
  Exn "OperationalError" "could not connect to server".

(** A request of user 42 on an application whose address is configured:
    [body] is what [request.get_json()] does, [send] what the mail
    collaborator does, [settings] what the settings service does. *)
Definition sample_env (body : outcome pyval) (send : outcome unit)
    (settings : outcome SettingsDTO) : Env :=
  {| request_get_json := body;
     authenticated_user_id := PInt 42;
     config := {[ "EMAIL_FROM_ADDRESS" := admin_address ]};
     _send_message := λ _ _ _ _, send;
     get_settings := settings;
     swagger := Returns (PDict sample_swag) |}.

(** The same request with another body: [body] is what
    [request.get_json()] does, everything else is as in [env]. *)
Definition with_body (body : outcome pyval) (env : Env) : Env :=
  {| request_get_json := body;
     authenticated_user_id := authenticated_user_id env;
     config := config env;
     _send_message := _send_message env;
     get_settings := get_settings env;
     swagger := swagger env |}.

(** The same request against another swagger document. *)
Definition with_swagger (doc : outcome pyval) (env : Env) : Env :=
  {| request_get_json := request_get_json env;
     authenticated_user_id := authenticated_user_id env;
     config := config env;
     _send_message := _send_message env;
     get_settings := get_settings env;
     swagger := doc |}.

(** The entry the contact handler logs for the exception [e]. *)
Definition contact_log (e : exn) : event :=
  EvLog CRITICAL ("Application GET API - unhandled error: " +:+ exn_str e).

(** The entry the languages handler logs for the exception [e]. *)
Definition languages_log (e : exn) : event :=
  EvLog CRITICAL ("Languages GET - unhandled error: " +:+ exn_str e).

(** A settings snapshot whose serialisation fails. *)
Definition broken_settings : SettingsDTO :=
  {| to_primitive := Raises (Exn "DataError" "supportedLanguages: invalid value") |}.

(** A request of user 42 on an application whose configuration has no
    [EMAIL_FROM_ADDRESS] entry. *)
Definition unconfigured_env (body : outcome pyval) : Env :=
  {| request_get_json := body;
     authenticated_user_id := PInt 42;
     config := ∅;
     _send_message := λ _ _ _ _, Returns tt;
     get_settings := Returns sample_settings;
     swagger := Returns (PDict sample_swag) |}.

(** * Properties *)

(** ** Running the monad *)

Lemma bind_returns {A B} (a : A) (t : list event) (k : A → M B) :
  mbind k (Returns a, t) = (fst (k a), (t ++ snd (k a))%list).
Proof. unfold mbind, M_bind, bind. destruct (k a); reflexivity. Qed.

Lemma bind_ret {A B} (a : A) (k : A → M B) : mbind k (ret a) = k a.
Proof. unfold ret. rewrite bind_returns. by destruct (k a). Qed.

Lemma bind_lift_returns {A B} (o : outcome A) (a : A) (k : A → M B) :
  o = Returns a → mbind k (lift o) = k a.
Proof. intros ->. apply bind_ret. Qed.

Lemma bind_lift_raises {A B} (o : outcome A) (e : exn) (k : A → M B) :
  o = Raises e → mbind k (lift o) = (Raises e, []).
Proof. intros ->. reflexivity. Qed.

Lemma try_except_returns {A} (a : A) (t : list event) (h : exn → M A) :
  try_except (Returns a, t) h = (Returns a, t).
Proof. reflexivity. Qed.

Lemma try_except_raises {A} (e : exn) (t : list event) (h : exn → M A) :
  try_except ((Raises e, t) : M A) h = (fst (h e), (t ++ snd (h e))%list).
Proof. unfold try_except. destruct (h e); reflexivity. Qed.

Lemma send_calls_app (t1 t2 : list event) :
  send_calls (t1 ++ t2)%list = (send_calls t1 ++ send_calls t2)%list.
Proof.
  induction t1 as [|ev t1 IH]; [reflexivity|].
  destruct ev; cbn; by rewrite IH.
Qed.

(** ** Health check *)

(** C7: whatever the collaborators of the request would do, the
    health-check handler returns the payload [{"status": "healthy"}] with
    status 200, and its trace is empty: neither the mail collaborator nor
    the logger is called. *)
Theorem heartbeat_fixed_payload (env : Env) :
  SystemHeartbeatAPI_get env = (Returns healthy, [])
  ∧ status healthy = 200
  ∧ (∃ d, payload healthy = PDict d
          ∧ d !! "status" = Some (PStr "healthy")
          ∧ ∀ k, k ≠ "status" → d !! k = None).
Proof.
  split; [reflexivity|]. split; [reflexivity|].
  eexists. split; [reflexivity|]. split.
  - apply lookup_singleton_eq.
  - intros k Hk. by apply lookup_singleton_ne.
Qed.

(** ** Supported languages *)

Lemma SystemLanguagesAPI_get_except_run (e : exn) :
  SystemLanguagesAPI_get_except e
  = (Returns languages_error,
     [EvLog CRITICAL ("Languages GET - unhandled error: " +:+ exn_str e)]).
Proof. reflexivity. Qed.

(** X1: a failure of the serialisation, [to_primitive()] raising [e] on
    the snapshot that [get_settings()] returned, is handled like a failure
    of the lookup: one critical log entry with the text of [e], and the
    fixed 500 response. *)
Lemma languages_to_primitive_raises (env : Env) (s : SettingsDTO) (e : exn) :
  get_settings env = Returns s →
  to_primitive s = Raises e →
  SystemLanguagesAPI_get env
  = (Returns languages_error,
     [EvLog CRITICAL ("Languages GET - unhandled error: " +:+ exn_str e)]).
Proof.
  intros Hs Hp. unfold SystemLanguagesAPI_get, SystemLanguagesAPI_get_try.
  rewrite (bind_lift_returns _ _ _ Hs), (bind_lift_raises _ _ _ Hp).
  by rewrite try_except_raises, SystemLanguagesAPI_get_except_run.
Qed.

(** C2: when [get_settings()] succeeds the languages handler returns
    status 200 with exactly the snapshot's serialisation and calls no one
    else; when [get_settings()] raises an exception [e] it logs once at
    critical severity and returns status 500 with the fixed payload
    [{"Error": "Unable to fetch supported languages"}], a response in
    which [e] does not occur: it is the same for every exception. *)
Theorem languages_snapshot_or_fixed_error (env : Env) :
  (∀ (s : SettingsDTO) (p : pyval),
      get_settings env = Returns s →
      to_primitive s = Returns p →
      SystemLanguagesAPI_get env = (Returns {| payload := p; status := 200 |}, []))
  ∧ (∀ e : exn,
      get_settings env = Raises e →
      SystemLanguagesAPI_get env
      = (Returns {| payload := PDict {[ "Error" := PStr "Unable to fetch supported languages" ]};
                    status := 500 |},
         [EvLog CRITICAL ("Languages GET - unhandled error: " +:+ exn_str e)])).
Proof.
  split.
  - intros s p Hs Hp. unfold SystemLanguagesAPI_get, SystemLanguagesAPI_get_try.
    rewrite (bind_lift_returns _ _ _ Hs), (bind_lift_returns _ _ _ Hp).
    reflexivity.
  - intros e He.
    unfold SystemLanguagesAPI_get, SystemLanguagesAPI_get_try.
    rewrite (bind_lift_raises _ _ _ He).
    by rewrite try_except_raises, SystemLanguagesAPI_get_except_run.
Qed.

Lemma languages_snapshot_or_fixed_error_witness :
  SystemLanguagesAPI_get
    (sample_env (Returns PNone) (Returns tt) (Returns sample_settings))
  = (Returns {| payload :=
                  PDict {[ "mapperLevelIntermediate" := PInt 250;
                           "supportedLanguages" :=
                             PList [PDict {[ "code" := PStr "en";
                                             "language" := PStr "English" ]}] ]};
                status := 200 |}, [])
  ∧ SystemLanguagesAPI_get
      (sample_env (Returns PNone) (Returns tt) (Raises OperationalError))
    = (Returns {| payload := PDict {[ "Error" := PStr "Unable to fetch supported languages" ]};
                  status := 500 |},
       [EvLog CRITICAL "Languages GET - unhandled error: could not connect to server"]).
Proof.
  split.
  - apply (proj1 (languages_snapshot_or_fixed_error _) sample_settings); reflexivity.
  - apply (proj2 (languages_snapshot_or_fixed_error _) OperationalError); reflexivity.
Defined.

(** ** What the composed message contains *)

Lemma str_format_contact_template (name email uid content : string) :
  str_format contact_template [name; email; uid; content]
  = Returns (contact_message name email uid content).
Proof. reflexivity. Qed.

Lemma string_app_assoc (s1 s2 s3 : string) :
  (s1 +:+ s2) +:+ s3 = s1 +:+ (s2 +:+ s3).
Proof.
  induction s1 as [|c s1 IH]; [reflexivity|].
  change (String c ((s1 +:+ s2) +:+ s3) = String c (s1 +:+ (s2 +:+ s3))).
  by rewrite IH.
Qed.

Lemma contains_here (pre needle post : string) :
  contains (pre +:+ needle +:+ post) needle.
Proof. by exists pre, post. Qed.

Lemma contains_app_r (pre hay needle : string) :
  contains hay needle → contains (pre +:+ hay) needle.
Proof.
  intros (p & q & ->). exists (pre +:+ p), q. by rewrite string_app_assoc.
Qed.

Lemma contact_message_contains_name (name email uid content : string) :
  contains (contact_message name email uid content) name.
Proof. unfold contact_message. apply contains_here. Qed.

Lemma contact_message_contains_email (name email uid content : string) :
  contains (contact_message name email uid content) email.
Proof.
  unfold contact_message. do 2 apply contains_app_r. apply contains_here.
Qed.

Lemma contact_message_contains_uid (name email uid content : string) :
  contains (contact_message name email uid content) uid.
Proof.
  unfold contact_message. do 4 apply contains_app_r. apply contains_here.
Qed.

Lemma contact_message_contains_content (name email uid content : string) :
  contains (contact_message name email uid content) content.
Proof.
  unfold contact_message. do 8 apply contains_app_r. apply contains_here.
Qed.

Lemma field_text_missing (py_repr : pyval → string) (d : gmap string pyval) (k : string) :
  d !! k = None → field_text py_repr d k = "None".
Proof. intros H. unfold field_text. by rewrite H. Qed.

Lemma field_text_present (py_repr : pyval → string) (d : gmap string pyval)
    (k : string) (v : pyval) :
  d !! k = Some v → field_text py_repr d k = py_str py_repr v.
Proof. intros H. unfold field_text. by rewrite H. Qed.

(** ** Contact admin: the [try] block, case by case *)

Section ContactAdmin.

Variable py_repr : pyval → string.
Variable env : Env.

Lemma post_except_run (e : exn) :
  SystemContactAdminRestAPI_post_except e
  = (Returns contact_error,
     [EvLog CRITICAL ("Application GET API - unhandled error: " +:+ exn_str e)]).
Proof. reflexivity. Qed.

Lemma post_try_get_json_raises (e : exn) :
  request_get_json env = Raises e →
  SystemContactAdminRestAPI_post_try py_repr env = (Raises e, []).
Proof.
  intros H. unfold SystemContactAdminRestAPI_post_try.
  by rewrite (bind_lift_raises _ _ _ H).
Qed.

Lemma post_try_not_dict (v : pyval) :
  request_get_json env = Returns v →
  (∀ d, v ≠ PDict d) →
  SystemContactAdminRestAPI_post_try py_repr env
  = (Raises (AttributeError v "get"), []).
Proof.
  intros H Hv. unfold SystemContactAdminRestAPI_post_try.
  rewrite (bind_lift_returns _ _ _ H).
  destruct v; try reflexivity. by destruct (Hv d).
Qed.

(** With a dict for a body the message is always composed; what is left
    is the address lookup and the call to the mail collaborator. *)
Lemma post_try_dict (d : gmap string pyval) :
  request_get_json env = Returns (PDict d) →
  SystemContactAdminRestAPI_post_try py_repr env
  = (to_address ← dict_getitem (config env) "EMAIL_FROM_ADDRESS";
     SMTPService_send_message env to_address contact_subject
       (message_of py_repr env d) (message_of py_repr env d);;
     ret email_sent).
Proof.
  intros H. unfold SystemContactAdminRestAPI_post_try.
  rewrite (bind_lift_returns _ _ _ H).
  unfold py_get. rewrite !bind_ret.
  rewrite str_format_contact_template.
  by rewrite (bind_lift_returns _ _ _ eq_refl).
Qed.

Lemma post_try_no_address (d : gmap string pyval) :
  request_get_json env = Returns (PDict d) →
  config env !! "EMAIL_FROM_ADDRESS" = None →
  SystemContactAdminRestAPI_post_try py_repr env
  = (Raises (KeyError "EMAIL_FROM_ADDRESS"), []).
Proof.
  intros H Hc. rewrite (post_try_dict d H).
  unfold dict_getitem. by rewrite Hc.
Qed.

Lemma post_try_send (d : gmap string pyval) (to_address : pyval) :
  request_get_json env = Returns (PDict d) →
  config env !! "EMAIL_FROM_ADDRESS" = Some to_address →
  SystemContactAdminRestAPI_post_try py_repr env
  = (match _send_message env to_address contact_subject
             (message_of py_repr env d) (message_of py_repr env d) with
     | Returns _ => Returns email_sent
     | Raises e => Raises e
     end,
     [EvSendMessage to_address contact_subject
        (message_of py_repr env d) (message_of py_repr env d)]).
Proof.
  intros H Hc. rewrite (post_try_dict d H).
  unfold dict_getitem. rewrite Hc, bind_ret.
  unfold SMTPService_send_message, emit, lift.
  rewrite bind_returns. cbn [fst snd].
  by destruct (_send_message env _ _ _ _).
Qed.

Lemma post_try_has_shape :
  post_try_shape (SystemContactAdminRestAPI_post_try py_repr env).
Proof.
  destruct (request_get_json env) as [v|e] eqn:Hj.
  - destruct v as [| | | | | |d];
      try (rewrite (post_try_not_dict _ Hj); [constructor|done]).
    destruct (config env !! "EMAIL_FROM_ADDRESS") as [a|] eqn:Hc.
    + rewrite (post_try_send d a Hj Hc).
      destruct (_send_message env _ _ _ _); constructor.
    + rewrite (post_try_no_address d Hj Hc). constructor.
  - rewrite (post_try_get_json_raises e Hj). constructor.
Qed.

Lemma post_try_at_most_one_send :
  (length (send_calls (snd (SystemContactAdminRestAPI_post_try py_repr env))) ≤ 1)%nat.
Proof. destruct post_try_has_shape; cbn; lia. Qed.

(** ** Contact admin: the whole method *)

(** A request whose body is a dict, with the address configured and a
    mail collaborator that accepts the message, is answered 201 after
    exactly one call to the collaborator. *)
Lemma post_dict_sent (d : gmap string pyval) (to_address : pyval) :
  request_get_json env = Returns (PDict d) →
  config env !! "EMAIL_FROM_ADDRESS" = Some to_address →
  (∀ a s h t, _send_message env a s h t = Returns tt) →
  SystemContactAdminRestAPI_post py_repr env
  = (Returns email_sent,
     [EvSendMessage to_address contact_subject
        (message_of py_repr env d) (message_of py_repr env d)]).
Proof.
  intros Hj Hc Hs. unfold SystemContactAdminRestAPI_post.
  by rewrite (post_try_send d to_address Hj Hc), Hs.
Qed.

(** An exception in the [try] block is logged and answered with the
    fixed error response. *)
Lemma post_raises (e : exn) (t : list event) :
  SystemContactAdminRestAPI_post_try py_repr env = (Raises e, t) →
  SystemContactAdminRestAPI_post py_repr env
  = (Returns contact_error,
     (t ++ [EvLog CRITICAL ("Application GET API - unhandled error: " +:+ exn_str e)])%list).
Proof.
  intros H. unfold SystemContactAdminRestAPI_post.
  by rewrite H, try_except_raises, post_except_run.
Qed.

(** The handler always answers, and only ever with 201 or 500. *)
Lemma post_status_201_or_500 :
  ∃ r : Response,
    fst (SystemContactAdminRestAPI_post py_repr env) = Returns r
    ∧ (status r = 201 ∨ status r = 500).
Proof.
  unfold SystemContactAdminRestAPI_post.
  destruct post_try_has_shape.
  - exists contact_error. rewrite try_except_raises, post_except_run. auto.
  - exists contact_error. rewrite try_except_raises, post_except_run. auto.
  - exists email_sent. rewrite try_except_returns. auto.
Qed.

End ContactAdmin.

(** ** Contact admin: the claims *)

(** C1: for a request with a valid session (user [uid]) and the body
    [{"name":"Alice","email":"a@x.com","content":"Hi"}], with the
    administrative address configured and a mail collaborator that does
    not raise, the handler calls the mail collaborator exactly once, with
    a message that contains "Alice", "a@x.com", "Hi" and the user's id,
    logs nothing, and returns status 201 with [{"Success": "Email sent"}]. *)
Theorem contact_admin_alice (py_repr : pyval → string) (env : Env)
    (uid : Z) (to_address : pyval) :
  request_get_json env = Returns (PDict alice_body) →
  authenticated_user_id env = PInt uid →
  config env !! "EMAIL_FROM_ADDRESS" = Some to_address →
  (∀ a s h t, _send_message env a s h t = Returns tt) →
  ∃ message : string,
    SystemContactAdminRestAPI_post py_repr env
    = (Returns {| payload := PDict {[ "Success" := PStr "Email sent" ]}; status := 201 |},
       [EvSendMessage to_address "Tasking Manager Contact" message message])
    ∧ contains message "Alice"
    ∧ contains message "a@x.com"
    ∧ contains message "Hi"
    ∧ contains message (pretty uid).
Proof.
  intros Hj Hu Hc Hs.
  exists (contact_message "Alice" "a@x.com" (pretty uid) "Hi").
  split.
  - rewrite (post_dict_sent py_repr env alice_body to_address Hj Hc Hs).
    unfold message_of. rewrite Hu. reflexivity.
  - split; [apply contact_message_contains_name|].
    split; [apply contact_message_contains_email|].
    split; [apply contact_message_contains_content|].
    apply contact_message_contains_uid.
Qed.

Lemma contact_admin_alice_witness :
  ∃ message : string,
    SystemContactAdminRestAPI_post sample_repr
      (sample_env (Returns (PDict alice_body)) (Returns tt) (Returns sample_settings))
    = (Returns {| payload := PDict {[ "Success" := PStr "Email sent" ]}; status := 201 |},
       [EvSendMessage admin_address "Tasking Manager Contact" message message])
    ∧ contains message "Alice"
    ∧ contains message "a@x.com"
    ∧ contains message "Hi"
    ∧ contains message (pretty 42).
Proof.
  apply (contact_admin_alice sample_repr _ 42 admin_address); reflexivity.
Defined.

(** C6: for a request with a valid session whose body is a JSON object,
    whichever of name, email and content it lacks, the handler (address
    configured, mail collaborator not raising) returns 201 and sends one
    message; a field the body lacks appears in it as Python's absent
    value, the text "None", and a field it has appears as its own text. *)
Theorem contact_admin_missing_fields (py_repr : pyval → string) (env : Env)
    (d : gmap string pyval) (to_address : pyval) :
  request_get_json env = Returns (PDict d) →
  config env !! "EMAIL_FROM_ADDRESS" = Some to_address →
  (∀ a s h t, _send_message env a s h t = Returns tt) →
  ∃ name email content : string,
    SystemContactAdminRestAPI_post py_repr env
    = (Returns {| payload := PDict {[ "Success" := PStr "Email sent" ]}; status := 201 |},
       [EvSendMessage to_address "Tasking Manager Contact"
          (contact_message name email (py_str py_repr (authenticated_user_id env)) content)
          (contact_message name email (py_str py_repr (authenticated_user_id env)) content)])
    ∧ (d !! "name" = None → name = "None")
    ∧ (d !! "email" = None → email = "None")
    ∧ (d !! "content" = None → content = "None")
    ∧ (∀ v, d !! "name" = Some v → name = py_str py_repr v)
    ∧ (∀ v, d !! "email" = Some v → email = py_str py_repr v)
    ∧ (∀ v, d !! "content" = Some v → content = py_str py_repr v).
Proof.
  intros Hj Hc Hs.
  exists (field_text py_repr d "name"), (field_text py_repr d "email"),
         (field_text py_repr d "content").
  split; [exact (post_dict_sent py_repr env d to_address Hj Hc Hs)|].
  repeat split; first [apply field_text_missing | apply field_text_present].
Qed.

Lemma contact_admin_missing_fields_witness :
  SystemContactAdminRestAPI_post sample_repr
    (sample_env (Returns (PDict body_without_content)) (Returns tt) (Returns sample_settings))
  = (Returns {| payload := PDict {[ "Success" := PStr "Email sent" ]}; status := 201 |},
     [EvSendMessage admin_address "Tasking Manager Contact"
        (contact_message "Alice" "a@x.com" "42" "None")
        (contact_message "Alice" "a@x.com" "42" "None")]).
Proof.
  destruct (contact_admin_missing_fields sample_repr
              (sample_env (Returns (PDict body_without_content)) (Returns tt)
                 (Returns sample_settings))
              body_without_content admin_address eq_refl eq_refl (λ _ _ _ _, eq_refl))
    as (name & email & content & Hp & _ & _ & Hcontent & Hname & Hemail & _).
  rewrite Hp, (Hcontent eq_refl), (Hname _ eq_refl), (Hemail _ eq_refl).
  reflexivity.
Defined.

(** C9: when [request.get_json()] yields [None], the first field access
    raises [AttributeError], no call is made to the mail collaborator,
    the error is logged once at critical severity, and the handler
    returns status 500 with [{"Error": "Unable to fetch application keys"}]. *)
Theorem contact_admin_no_json_body (py_repr : pyval → string) (env : Env) :
  request_get_json env = Returns PNone →
  SystemContactAdminRestAPI_post_try py_repr env
  = (Raises (Exn "AttributeError" "'NoneType' object has no attribute 'get'"), [])
  ∧ SystemContactAdminRestAPI_post py_repr env
    = (Returns {| payload := PDict {[ "Error" := PStr "Unable to fetch application keys" ]};
                  status := 500 |},
       [EvLog CRITICAL
          "Application GET API - unhandled error: 'NoneType' object has no attribute 'get'"])
  ∧ send_calls (snd (SystemContactAdminRestAPI_post py_repr env)) = [].
Proof.
  intros Hj.
  assert (Ht : SystemContactAdminRestAPI_post_try py_repr env
               = (Raises (AttributeError PNone "get"), [])).
  { by apply post_try_not_dict. }
  split; [exact Ht|].
  rewrite (post_raises py_repr env _ _ Ht). split; reflexivity.
Qed.

Lemma contact_admin_no_json_body_witness :
  SystemContactAdminRestAPI_post sample_repr
    (sample_env (Returns PNone) (Returns tt) (Returns sample_settings))
  = (Returns {| payload := PDict {[ "Error" := PStr "Unable to fetch application keys" ]};
                status := 500 |},
     [EvLog CRITICAL
        "Application GET API - unhandled error: 'NoneType' object has no attribute 'get'"]).
Proof.
  apply (contact_admin_no_json_body sample_repr
           (sample_env (Returns PNone) (Returns tt) (Returns sample_settings)) eq_refl).
Defined.

(** C4: if the [try] block of the contact handler raises an exception
    [e], after the events [t], the handler logs [e] once at critical
    severity and returns status 500 with a fixed payload, the same for
    every [e]; and the mail collaborator has been called at most once,
    with no further call after the failure. *)
Theorem contact_admin_failure_is_generic (py_repr : pyval → string) (env : Env)
    (e : exn) (t : list event) :
  SystemContactAdminRestAPI_post_try py_repr env = (Raises e, t) →
  SystemContactAdminRestAPI_post py_repr env
  = (Returns {| payload := PDict {[ "Error" := PStr "Unable to fetch application keys" ]};
                status := 500 |},
     (t ++ [EvLog CRITICAL ("Application GET API - unhandled error: " +:+ exn_str e)])%list)
  ∧ critical_logs (snd (SystemContactAdminRestAPI_post py_repr env))
    = ["Application GET API - unhandled error: " +:+ exn_str e]
  ∧ send_calls (snd (SystemContactAdminRestAPI_post py_repr env)) = send_calls t
  ∧ (length (send_calls t) ≤ 1)%nat.
Proof.
  intros Ht.
  pose proof (post_try_at_most_one_send py_repr env) as Hone.
  pose proof (post_try_has_shape py_repr env) as Hshape.
  rewrite (post_raises py_repr env e t Ht).
  split; [reflexivity|].
  rewrite Ht in Hone, Hshape. cbn [snd] in *.
  split; [inversion Hshape; subst; reflexivity|].
  split; [|exact Hone].
  rewrite send_calls_app. cbn. apply app_nil_r.
Qed.

Lemma contact_admin_failure_is_generic_witness :
  SystemContactAdminRestAPI_post sample_repr
    (sample_env (Returns (PDict alice_body)) (Raises SMTPServerDisconnected)
       (Returns sample_settings))
  = (Returns {| payload := PDict {[ "Error" := PStr "Unable to fetch application keys" ]};
                status := 500 |},
     [EvSendMessage admin_address "Tasking Manager Contact"
        (contact_message "Alice" "a@x.com" "42" "Hi")
        (contact_message "Alice" "a@x.com" "42" "Hi");
      EvLog CRITICAL "Application GET API - unhandled error: Connection unexpectedly closed"]).
Proof.
  apply (contact_admin_failure_is_generic sample_repr
           (sample_env (Returns (PDict alice_body)) (Raises SMTPServerDisconnected)
              (Returns sample_settings))
           SMTPServerDisconnected
           [EvSendMessage admin_address "Tasking Manager Contact"
              (contact_message "Alice" "a@x.com" "42" "Hi")
              (contact_message "Alice" "a@x.com" "42" "Hi")]).
  reflexivity.
Defined.

(** C10: whenever the contact handler answers 201, its trace is a single
    call to the mail collaborator whose HTML body and plain-text body are
    the same string. *)
Theorem contact_admin_html_is_text (py_repr : pyval → string) (env : Env)
    (r : Response) (t : list event) :
  SystemContactAdminRestAPI_post py_repr env = (Returns r, t) →
  status r = 201 →
  ∃ (to_address : pyval) (message : string),
    t = [EvSendMessage to_address "Tasking Manager Contact" message message]
    ∧ send_calls t = [(to_address, "Tasking Manager Contact", message, message)].
Proof.
  intros Hp Hst. unfold SystemContactAdminRestAPI_post in Hp.
  destruct (post_try_has_shape py_repr env) as [e|a m e|a m].
  - rewrite try_except_raises, post_except_run in Hp.
    injection Hp as <- <-. discriminate Hst.
  - rewrite try_except_raises, post_except_run in Hp.
    injection Hp as <- <-. discriminate Hst.
  - rewrite try_except_returns in Hp. injection Hp as <- <-.
    by exists a, m.
Qed.

Lemma contact_admin_html_is_text_witness :
  ∃ (to_address : pyval) (message : string),
    [EvSendMessage admin_address "Tasking Manager Contact"
       (contact_message "Alice" "a@x.com" "42" "Hi")
       (contact_message "Alice" "a@x.com" "42" "Hi")]
    = [EvSendMessage to_address "Tasking Manager Contact" message message]
    ∧ send_calls
        [EvSendMessage admin_address "Tasking Manager Contact"
           (contact_message "Alice" "a@x.com" "42" "Hi")
           (contact_message "Alice" "a@x.com" "42" "Hi")]
      = [(to_address, "Tasking Manager Contact", message, message)].
Proof.
  apply (contact_admin_html_is_text sample_repr
           (sample_env (Returns (PDict alice_body)) (Returns tt) (Returns sample_settings))
           email_sent); reflexivity.
Defined.

(** C3: the contact handler has no 400 answer.  A body that is not a
    JSON object, whether [request.get_json()] raises on it or yields a
    value that is not a dict, is answered with status 500 and the fixed
    error payload. *)
Theorem contact_admin_invalid_body_is_500 (py_repr : pyval → string) (env : Env) :
  ((∃ e, request_get_json env = Raises e)
   ∨ (∃ v, request_get_json env = Returns v ∧ ∀ d, v ≠ PDict d)) →
  ∃ r : Response,
    fst (SystemContactAdminRestAPI_post py_repr env) = Returns r
    ∧ status r = 500
    ∧ status r ≠ 400
    ∧ payload r = PDict {[ "Error" := PStr "Unable to fetch application keys" ]}.
Proof.
  intros [[e He]|(v & Hv & Hn)]; exists contact_error.
  - by rewrite (post_raises py_repr env e [] (post_try_get_json_raises py_repr env e He)).
  - by rewrite (post_raises py_repr env _ [] (post_try_not_dict py_repr env v Hv Hn)).
Qed.

Lemma contact_admin_invalid_body_is_500_witness :
  ∃ r : Response,
    fst (SystemContactAdminRestAPI_post sample_repr
           (sample_env (Raises BadRequest) (Returns tt) (Returns sample_settings)))
    = Returns r
    ∧ status r = 500
    ∧ status r ≠ 400
    ∧ payload r = PDict {[ "Error" := PStr "Unable to fetch application keys" ]}.
Proof.
  apply (contact_admin_invalid_body_is_500 sample_repr
           (sample_env (Raises BadRequest) (Returns tt) (Returns sample_settings))).
  left. exists BadRequest. reflexivity.
Defined.

(** ** API description document *)

Lemma py_setitem2_dict (d info : gmap string pyval) (k1 k2 : string) (x : pyval) :
  d !! k1 = Some (PDict info) →
  py_setitem2 (PDict d) k1 k2 x
  = (Returns (PDict (<[k1 := PDict (<[k2 := x]> info)]> d)), []).
Proof.
  intros H. unfold py_setitem2, py_getitem. rewrite H, bind_ret.
  unfold py_setitem. by rewrite bind_ret.
Qed.

(** Outside of that case the assignment raises. *)
Lemma py_setitem2_cases (v : pyval) (k1 k2 : string) (x : pyval) :
  (∃ d info, v = PDict d ∧ d !! k1 = Some (PDict info))
  ∨ (∃ e, py_setitem2 v k1 k2 x = (Raises e, [])).
Proof.
  destruct v as [| | | | | |d]; try (right; eexists; reflexivity).
  destruct (d !! k1) as [inner|] eqn:Hk.
  - destruct inner as [| | | | | |info];
      try (right; eexists; unfold py_setitem2, py_getitem;
           rewrite Hk, bind_ret; reflexivity).
    left. by exists d, info.
  - right. eexists. unfold py_setitem2, py_getitem. rewrite Hk. reflexivity.
Qed.

Lemma docs_returns (env : Env) (d info : gmap string pyval) :
  swagger env = Returns (PDict d) →
  d !! "info" = Some (PDict info) →
  SystemDocsAPI_get env = (Returns (jsonify (described d info)), []).
Proof.
  intros Hs Hi. unfold SystemDocsAPI_get.
  rewrite (bind_lift_returns _ _ _ Hs).
  rewrite (py_setitem2_dict d info _ _ _ Hi), bind_returns.
  rewrite (py_setitem2_dict _ _ "info" "description" _ (lookup_insert_eq _ _ _)).
  cbn [fst snd]. rewrite bind_returns.
  rewrite (py_setitem2_dict _ _ "info" "version" _ (lookup_insert_eq _ _ _)).
  cbn [fst snd]. rewrite bind_returns. cbn [fst snd app ret].
  unfold described. by rewrite !insert_insert_eq.
Qed.

Lemma docs_returns_inv (env : Env) (r : Response) (t : list event) :
  SystemDocsAPI_get env = (Returns r, t) →
  ∃ d info, swagger env = Returns (PDict d) ∧ d !! "info" = Some (PDict info).
Proof.
  intros H. unfold SystemDocsAPI_get in H.
  destruct (swagger env) as [v|e] eqn:Hs; [|discriminate H].
  rewrite (bind_lift_returns _ _ _ eq_refl) in H.
  destruct (py_setitem2_cases v "info" "title" (PStr "Tasking Manager backend API"))
    as [(d & info & -> & Hi)|[e He]].
  - by exists d, info.
  - rewrite He in H. discriminate H.
Qed.

Lemma info_field_described (d info : gmap string pyval) :
  info_field (described d info) "title" = Some (PStr "Tasking Manager backend API")
  ∧ info_field (described d info) "description" = Some (PStr "API endpoints for the backend")
  ∧ info_field (described d info) "version" = Some (PStr "2.0.0").
Proof.
  unfold info_field, described. rewrite lookup_insert_eq.
  repeat split.
  - rewrite !lookup_insert_ne by done. apply lookup_insert_eq.
  - rewrite lookup_insert_ne by done. apply lookup_insert_eq.
  - apply lookup_insert_eq.
Qed.

(** C8: when flask-swagger hands over a document with an ["info"] dict,
    the docs handler returns; and every document the docs handler
    returns has status 200 and, under ["info"], the title "Tasking
    Manager backend API", the description "API endpoints for the backend"
    and the version "2.0.0", none of which is the empty string. *)
Theorem docs_title_description_version (env : Env) :
  (∀ d info : gmap string pyval,
      swagger env = Returns (PDict d) →
      d !! "info" = Some (PDict info) →
      ∃ r, SystemDocsAPI_get env = (Returns r, []))
  ∧ (∀ (r : Response) (t : list event),
      SystemDocsAPI_get env = (Returns r, t) →
      status r = 200
      ∧ info_field (payload r) "title" = Some (PStr "Tasking Manager backend API")
      ∧ info_field (payload r) "description" = Some (PStr "API endpoints for the backend")
      ∧ info_field (payload r) "version" = Some (PStr "2.0.0")
      ∧ ∀ k, k ∈ ["title"; "description"; "version"] →
             ∃ s, info_field (payload r) k = Some (PStr s) ∧ s ≠ "").
Proof.
  split.
  - intros d info Hs Hi. eexists. exact (docs_returns env d info Hs Hi).
  - intros r t H. destruct (docs_returns_inv env r t H) as (d & info & Hs & Hi).
    rewrite (docs_returns env d info Hs Hi) in H. injection H as <- <-.
    destruct (info_field_described d info) as (Ht & Hd & Hv).
    cbn [payload status jsonify].
    repeat split; try done.
    intros k Hk. rewrite !elem_of_cons, elem_of_nil in Hk.
    destruct Hk as [->|[->|[->|[]]]]; eexists; (split; [eassumption|done]).
Qed.

Lemma docs_title_description_version_witness :
  ∃ r : Response,
    SystemDocsAPI_get (sample_env (Returns PNone) (Returns tt) (Returns sample_settings))
    = (Returns r, [])
    ∧ status r = 200
    ∧ info_field (payload r) "title" = Some (PStr "Tasking Manager backend API")
    ∧ info_field (payload r) "description" = Some (PStr "API endpoints for the backend")
    ∧ info_field (payload r) "version" = Some (PStr "2.0.0").
Proof.
  destruct (proj1 (docs_title_description_version
                     (sample_env (Returns PNone) (Returns tt) (Returns sample_settings)))
              sample_swag _ eq_refl eq_refl) as [r Hr].
  exists r. split; [exact Hr|].
  destruct (proj2 (docs_title_description_version _) r [] Hr)
    as (Hst & Ht & Hd & Hv & _).
  repeat split; assumption.
Defined.

(** ** Authentication *)

Lemma contact_admin_endpoint_authenticated (py_repr : pyval → string) (env : Env) (uid : Z) :
  contact_admin_endpoint py_repr (Authenticated uid) env
  = SystemContactAdminRestAPI_post py_repr (with_user uid env).
Proof. reflexivity. Qed.

(** C5: a request whose session check does not yield an authenticated
    user never enters the handler: the trace is empty, so the mail
    collaborator is not called, and the response status is 401 or 403. *)
Theorem contact_admin_unauthenticated (py_repr : pyval → string) (env : Env)
    (auth : auth_result) :
  (∀ uid, auth ≠ Authenticated uid) →
  ∃ r : Response,
    contact_admin_endpoint py_repr auth env = (Returns r, [])
    ∧ send_calls (snd (contact_admin_endpoint py_repr auth env)) = []
    ∧ (status r = 401 ∨ status r = 403).
Proof.
  intros Hn. destruct auth as [uid|f body]; [by destruct (Hn uid)|].
  eexists. split; [reflexivity|]. split; [reflexivity|].
  destruct f; cbn; auto.
Qed.

Lemma contact_admin_unauthenticated_witness :
  ∃ r : Response,
    contact_admin_endpoint sample_repr
      (Rejected Unauthorized (PDict {[ "Error" := PStr "Token is expired or invalid" ]}))
      (sample_env (Returns (PDict alice_body)) (Returns tt) (Returns sample_settings))
    = (Returns r, [])
    ∧ send_calls
        (snd (contact_admin_endpoint sample_repr
                (Rejected Unauthorized (PDict {[ "Error" := PStr "Token is expired or invalid" ]}))
                (sample_env (Returns (PDict alice_body)) (Returns tt) (Returns sample_settings))))
      = []
    ∧ (status r = 401 ∨ status r = 403).
Proof.
  apply (contact_admin_unauthenticated sample_repr
           (sample_env (Returns (PDict alice_body)) (Returns tt) (Returns sample_settings))
           (Rejected Unauthorized (PDict {[ "Error" := PStr "Token is expired or invalid" ]}))).
  intros uid H. discriminate H.
Defined.

(** * Further properties of the handlers *)

(** ** Supported languages *)

Lemma languages_to_primitive_raises_witness :
  SystemLanguagesAPI_get
    (sample_env (Returns PNone) (Returns tt) (Returns broken_settings))
  = (Returns languages_error,
     [EvLog CRITICAL "Languages GET - unhandled error: supportedLanguages: invalid value"]).
Proof.
  apply (languages_to_primitive_raises
           (sample_env (Returns PNone) (Returns tt) (Returns broken_settings))
           broken_settings (Exn "DataError" "supportedLanguages: invalid value"));
    reflexivity.
Defined.

(** X2: the languages handler never lets an exception out and never
    calls the mail collaborator.  Either it answers 200 with the
    serialisation of the snapshot and an empty trace, or it answers with
    the fixed 500 response after exactly one critical log entry, for the
    exception that the lookup or the serialisation raised. *)
Theorem languages_always_answers (env : Env) :
  ∃ r : Response,
    fst (SystemLanguagesAPI_get env) = Returns r
    ∧ send_calls (snd (SystemLanguagesAPI_get env)) = []
    ∧ ((status r = 200
        ∧ snd (SystemLanguagesAPI_get env) = []
        ∧ ∃ s, get_settings env = Returns s ∧ to_primitive s = Returns (payload r))
       ∨ (r = languages_error
          ∧ ∃ e, snd (SystemLanguagesAPI_get env) = [languages_log e]
                 ∧ (get_settings env = Raises e
                    ∨ ∃ s, get_settings env = Returns s ∧ to_primitive s = Raises e))).
Proof.
  destruct (get_settings env) as [s|e] eqn:Hs.
  - destruct (to_primitive s) as [p|e] eqn:Hp.
    + exists {| payload := p; status := 200 |}.
      unfold SystemLanguagesAPI_get, SystemLanguagesAPI_get_try.
      rewrite (bind_lift_returns _ _ _ Hs), (bind_lift_returns _ _ _ Hp).
      cbn. repeat split. left. repeat split. by exists s.
    + exists languages_error.
      unfold SystemLanguagesAPI_get, SystemLanguagesAPI_get_try.
      rewrite (bind_lift_returns _ _ _ Hs), (bind_lift_raises _ _ _ Hp).
      rewrite try_except_raises, SystemLanguagesAPI_get_except_run.
      cbn. repeat split. right. split; [done|]. exists e. split; [done|].
      right. by exists s.
  - exists languages_error.
    unfold SystemLanguagesAPI_get, SystemLanguagesAPI_get_try.
    rewrite (bind_lift_raises _ _ _ Hs).
    rewrite try_except_raises, SystemLanguagesAPI_get_except_run.
    cbn. repeat split. right. split; [done|]. exists e. split; [done|]. by left.
Qed.

(** ** Contact admin *)

(** The whole method, case by case on what the collaborators do. *)
Lemma post_run (py_repr : pyval → string) (env : Env) :
  SystemContactAdminRestAPI_post py_repr env
  = match request_get_json env with
    | Raises e => (Returns contact_error, [contact_log e])
    | Returns (PDict d) =>
        match config env !! "EMAIL_FROM_ADDRESS" with
        | None => (Returns contact_error, [contact_log (KeyError "EMAIL_FROM_ADDRESS")])
        | Some a =>
            match _send_message env a contact_subject
                    (message_of py_repr env d) (message_of py_repr env d) with
            | Returns _ =>
                (Returns email_sent,
                 [EvSendMessage a contact_subject
                    (message_of py_repr env d) (message_of py_repr env d)])
            | Raises e =>
                (Returns contact_error,
                 [EvSendMessage a contact_subject
                    (message_of py_repr env d) (message_of py_repr env d);
                  contact_log e])
            end
        end
    | Returns v => (Returns contact_error, [contact_log (AttributeError v "get")])
    end.
Proof.
  destruct (request_get_json env) as [v|e] eqn:Hj.
  - destruct v as [| | | | | |d];
      try (by rewrite (post_raises py_repr env _ []
                         (post_try_not_dict py_repr env _ Hj ltac:(done)))).
    destruct (config env !! "EMAIL_FROM_ADDRESS") as [a|] eqn:Hc.
    + pose proof (post_try_send py_repr env d a Hj Hc) as Ht.
      destruct (_send_message env a contact_subject _ _) as [u|e].
      * unfold SystemContactAdminRestAPI_post. by rewrite Ht.
      * by rewrite (post_raises py_repr env e _ Ht).
    + by rewrite (post_raises py_repr env _ []
                    (post_try_no_address py_repr env d Hj Hc)).
  - by rewrite (post_raises py_repr env e []
                  (post_try_get_json_raises py_repr env e Hj)).
Qed.

(** X3: the contact handler never lets an exception out.  It answers
    201 after exactly one call to the mail collaborator and no log entry,
    or 500 after exactly one critical log entry and at most one call to
    the mail collaborator. *)
Theorem contact_admin_always_answers (py_repr : pyval → string) (env : Env) :
  ∃ r : Response,
    fst (SystemContactAdminRestAPI_post py_repr env) = Returns r
    ∧ ((r = email_sent
        ∧ critical_logs (snd (SystemContactAdminRestAPI_post py_repr env)) = []
        ∧ length (send_calls (snd (SystemContactAdminRestAPI_post py_repr env))) = 1%nat)
       ∨ (r = contact_error
          ∧ length (critical_logs (snd (SystemContactAdminRestAPI_post py_repr env))) = 1%nat
          ∧ (length (send_calls (snd (SystemContactAdminRestAPI_post py_repr env))) ≤ 1)%nat)).
Proof.
  rewrite post_run.
  destruct (request_get_json env) as [v|e].
  - destruct v as [| | | | | |d];
      try (exists contact_error; split; [reflexivity|]; right; cbn; auto).
    destruct (config env !! "EMAIL_FROM_ADDRESS") as [a|].
    + destruct (_send_message env a _ _ _) as [u|e].
      * exists email_sent. split; [reflexivity|]. left. cbn. auto.
      * exists contact_error. split; [reflexivity|]. right. cbn. auto.
    + exists contact_error. split; [reflexivity|]. right. cbn. auto.
  - exists contact_error. split; [reflexivity|]. right. cbn. auto.
Qed.

(** X4: the contact handler answers 201 exactly when the body is a JSON
    object, the address is configured, and the mail collaborator accepts
    the message composed from that body. *)
Theorem contact_admin_201_iff (py_repr : pyval → string) (env : Env) :
  fst (SystemContactAdminRestAPI_post py_repr env) = Returns email_sent
  ↔ ∃ (d : gmap string pyval) (a : pyval),
      request_get_json env = Returns (PDict d)
      ∧ config env !! "EMAIL_FROM_ADDRESS" = Some a
      ∧ _send_message env a "Tasking Manager Contact"
          (message_of py_repr env d) (message_of py_repr env d) = Returns tt.
Proof.
  rewrite post_run. split.
  - destruct (request_get_json env) as [v|e]; [|discriminate].
    destruct v as [| | | | | |d]; try discriminate.
    destruct (config env !! "EMAIL_FROM_ADDRESS") as [a|]; [|discriminate].
    destruct (_send_message env a contact_subject _ _) as [[]|e] eqn:Hs;
      [|discriminate].
    intros _. by exists d, a.
  - intros (d & a & -> & -> & Hs). unfold contact_subject. by rewrite Hs.
Qed.

(** X5: with a JSON object for a body but no [EMAIL_FROM_ADDRESS] entry
    in the configuration, the lookup raises [KeyError]: the mail
    collaborator is not called, the log entry carries the quoted key, and
    the answer is the fixed 500 response. *)
Theorem contact_admin_address_not_configured (py_repr : pyval → string) (env : Env)
    (d : gmap string pyval) :
  request_get_json env = Returns (PDict d) →
  config env !! "EMAIL_FROM_ADDRESS" = None →
  SystemContactAdminRestAPI_post py_repr env
  = (Returns contact_error,
     [EvLog CRITICAL "Application GET API - unhandled error: 'EMAIL_FROM_ADDRESS'"])
  ∧ send_calls (snd (SystemContactAdminRestAPI_post py_repr env)) = [].
Proof.
  intros Hj Hc. rewrite post_run, Hj, Hc. split; reflexivity.
Qed.

Lemma contact_admin_address_not_configured_witness :
  SystemContactAdminRestAPI_post sample_repr
    (unconfigured_env (Returns (PDict alice_body)))
  = (Returns contact_error,
     [EvLog CRITICAL "Application GET API - unhandled error: 'EMAIL_FROM_ADDRESS'"]).
Proof.
  apply (contact_admin_address_not_configured sample_repr
           (unconfigured_env (Returns (PDict alice_body))) alice_body);
    reflexivity.
Defined.

(** X6: a body that decodes to a JSON value other than an object (null,
    a boolean, a number, a string, an array) never reaches the mail
    collaborator: the first field access raises [AttributeError], whose
    text names the Python type of the value, and the answer is the fixed
    500 response. *)
Theorem contact_admin_body_not_an_object (py_repr : pyval → string) (env : Env)
    (v : pyval) :
  request_get_json env = Returns v →
  (∀ d, v ≠ PDict d) →
  SystemContactAdminRestAPI_post py_repr env
  = (Returns contact_error,
     [EvLog CRITICAL
        ("Application GET API - unhandled error: '" +:+ py_type_name v
         +:+ "' object has no attribute 'get'")])
  ∧ send_calls (snd (SystemContactAdminRestAPI_post py_repr env)) = [].
Proof.
  intros Hj Hv. rewrite post_run, Hj.
  destruct v as [| | | | | |d]; try (split; reflexivity).
  by destruct (Hv d).
Qed.

Lemma contact_admin_body_not_an_object_witness :
  SystemContactAdminRestAPI_post sample_repr
    (sample_env (Returns (PList [PStr "Alice"; PStr "a@x.com"])) (Returns tt)
       (Returns sample_settings))
  = (Returns contact_error,
     [EvLog CRITICAL
        "Application GET API - unhandled error: 'list' object has no attribute 'get'"]).
Proof.
  apply (contact_admin_body_not_an_object sample_repr
           (sample_env (Returns (PList [PStr "Alice"; PStr "a@x.com"])) (Returns tt)
              (Returns sample_settings))
           (PList [PStr "Alice"; PStr "a@x.com"]) eq_refl).
  intros d H. discriminate H.
Defined.

(** X7: when the mail collaborator raises [e], the call has been made
    once, with the address from the configuration, the fixed subject and
    the composed message for both bodies; the failure is then logged with
    the text of [e] and answered with the fixed 500 response.  Nothing is
    sent again. *)
Theorem contact_admin_delivery_failure (py_repr : pyval → string) (env : Env)
    (d : gmap string pyval) (a : pyval) (e : exn) :
  request_get_json env = Returns (PDict d) →
  config env !! "EMAIL_FROM_ADDRESS" = Some a →
  _send_message env a "Tasking Manager Contact"
    (message_of py_repr env d) (message_of py_repr env d) = Raises e →
  SystemContactAdminRestAPI_post py_repr env
  = (Returns contact_error,
     [EvSendMessage a "Tasking Manager Contact"
        (message_of py_repr env d) (message_of py_repr env d);
      EvLog CRITICAL ("Application GET API - unhandled error: " +:+ exn_str e)]).
Proof.
  intros Hj Hc Hs. rewrite post_run, Hj, Hc. unfold contact_subject.
  by rewrite Hs.
Qed.

Lemma contact_admin_delivery_failure_witness :
  SystemContactAdminRestAPI_post sample_repr
    (sample_env (Returns (PDict body_without_content)) (Raises SMTPServerDisconnected)
       (Returns sample_settings))
  = (Returns contact_error,
     [EvSendMessage admin_address "Tasking Manager Contact"
        (contact_message "Alice" "a@x.com" "42" "None")
        (contact_message "Alice" "a@x.com" "42" "None");
      EvLog CRITICAL "Application GET API - unhandled error: Connection unexpectedly closed"]).
Proof.
  apply (contact_admin_delivery_failure sample_repr
           (sample_env (Returns (PDict body_without_content))
              (Raises SMTPServerDisconnected) (Returns sample_settings))
           body_without_content admin_address SMTPServerDisconnected
           eq_refl eq_refl eq_refl).
Defined.

(** Two object bodies whose three fields print alike get the same
    treatment. *)
Lemma post_depends_on_field_texts (py_repr : pyval → string) (env : Env)
    (d1 d2 : gmap string pyval) :
  field_text py_repr d1 "name" = field_text py_repr d2 "name" →
  field_text py_repr d1 "email" = field_text py_repr d2 "email" →
  field_text py_repr d1 "content" = field_text py_repr d2 "content" →
  SystemContactAdminRestAPI_post py_repr (with_body (Returns (PDict d1)) env)
  = SystemContactAdminRestAPI_post py_repr (with_body (Returns (PDict d2)) env).
Proof.
  intros Hn He Hc. rewrite !post_run.
  cbn [request_get_json config _send_message with_body].
  assert (Hm : message_of py_repr (with_body (Returns (PDict d1)) env) d1
               = message_of py_repr (with_body (Returns (PDict d2)) env) d2).
  { unfold message_of. cbn [authenticated_user_id with_body].
    by rewrite Hn, He, Hc. }
  by rewrite Hm.
Qed.

(** X8: the contact handler reads only the name, email and content
    entries of the body.  Two JSON objects that agree on these three
    keys, whatever else they hold, lead to the same mail, the same log
    and the same answer. *)
Theorem contact_admin_reads_three_fields (py_repr : pyval → string) (env : Env)
    (d1 d2 : gmap string pyval) :
  d1 !! "name" = d2 !! "name" →
  d1 !! "email" = d2 !! "email" →
  d1 !! "content" = d2 !! "content" →
  SystemContactAdminRestAPI_post py_repr (with_body (Returns (PDict d1)) env)
  = SystemContactAdminRestAPI_post py_repr (with_body (Returns (PDict d2)) env).
Proof.
  intros Hn He Hc. apply post_depends_on_field_texts; unfold field_text;
    by rewrite ?Hn, ?He, ?Hc.
Qed.

Lemma contact_admin_reads_three_fields_witness :
  SystemContactAdminRestAPI_post sample_repr
    (with_body (Returns (PDict (<["is_admin" := PBool true]> alice_body)))
       (sample_env (Returns PNone) (Returns tt) (Returns sample_settings)))
  = SystemContactAdminRestAPI_post sample_repr
      (with_body (Returns (PDict alice_body))
         (sample_env (Returns PNone) (Returns tt) (Returns sample_settings))).
Proof.
  apply (contact_admin_reads_three_fields sample_repr
           (sample_env (Returns PNone) (Returns tt) (Returns sample_settings))
           (<["is_admin" := PBool true]> alice_body) alice_body);
    reflexivity.
Defined.

(** X9: an entry that is JSON null is treated exactly like an entry that
    is not there.  Setting any key of the body to null and removing that
    key lead to the same mail, the same log and the same answer. *)
Theorem contact_admin_null_is_absent (py_repr : pyval → string) (env : Env)
    (d : gmap string pyval) (k : string) :
  SystemContactAdminRestAPI_post py_repr
    (with_body (Returns (PDict (<[k := PNone]> d))) env)
  = SystemContactAdminRestAPI_post py_repr
      (with_body (Returns (PDict (delete k d))) env).
Proof.
  apply post_depends_on_field_texts; unfold field_text;
    match goal with
    | |- context [ <[k := PNone]> d !! ?f ] =>
        destruct (decide (k = f)) as [->|Hne];
        [ by rewrite lookup_insert_eq, lookup_delete_eq
        | by rewrite lookup_insert_ne, lookup_delete_ne ]
    end.
Qed.

(** ** API description document *)

(** X10: the docs handler changes nothing but the three entries it
    sets.  Every top-level entry of the flask-swagger document other than
    ["info"] is kept as it was, and so is every entry of ["info"] other
    than the title, the description and the version. *)
Theorem docs_keeps_other_entries (env : Env) (d info : gmap string pyval) :
  swagger env = Returns (PDict d) →
  d !! "info" = Some (PDict info) →
  ∃ d' info' : gmap string pyval,
    SystemDocsAPI_get env = (Returns {| payload := PDict d'; status := 200 |}, [])
    ∧ d' !! "info" = Some (PDict info')
    ∧ (∀ k, k ≠ "info" → d' !! k = d !! k)
    ∧ (∀ k, k ≠ "title" → k ≠ "description" → k ≠ "version" →
            info' !! k = info !! k).
Proof.
  intros Hs Hi. eexists _, _. split; [exact (docs_returns env d info Hs Hi)|].
  split; [apply lookup_insert_eq|]. split.
  - intros k Hk. by rewrite lookup_insert_ne.
  - intros k H1 H2 H3. by rewrite !lookup_insert_ne.
Qed.

Lemma docs_keeps_other_entries_witness :
  ∃ d' info' : gmap string pyval,
    SystemDocsAPI_get (sample_env (Returns PNone) (Returns tt) (Returns sample_settings))
    = (Returns {| payload := PDict d'; status := 200 |}, [])
    ∧ d' !! "info" = Some (PDict info')
    ∧ d' !! "swagger" = Some (PStr "2.0").
Proof.
  destruct (docs_keeps_other_entries
              (sample_env (Returns PNone) (Returns tt) (Returns sample_settings))
              sample_swag _ eq_refl eq_refl)
    as (d' & info' & Hr & Hi & Hd & _).
  exists d', info'. split; [exact Hr|]. split; [exact Hi|].
  rewrite (Hd "swagger"); [reflexivity|discriminate].
Defined.

(** X11: the docs handler has no [try] block.  An exception of
    flask-swagger leaves the handler as it is, a document without an
    ["info"] entry makes it raise [KeyError], and in no case does it log
    or call the mail collaborator. *)
Theorem docs_lets_errors_out (env : Env) :
  (∀ e, swagger env = Raises e → SystemDocsAPI_get env = (Raises e, []))
  ∧ (∀ d, swagger env = Returns (PDict d) → d !! "info" = None →
          SystemDocsAPI_get env = (Raises (Exn "KeyError" "'info'"), []))
  ∧ snd (SystemDocsAPI_get env) = [].
Proof.
  split; [|split].
  - intros e He. unfold SystemDocsAPI_get. by rewrite (bind_lift_raises _ _ _ He).
  - intros d Hd Hi. unfold SystemDocsAPI_get.
    rewrite (bind_lift_returns _ _ _ Hd).
    unfold py_setitem2, py_getitem. by rewrite Hi.
  - unfold SystemDocsAPI_get.
    destruct (swagger env) as [v|e] eqn:Hs; [|reflexivity].
    rewrite (bind_lift_returns _ _ _ eq_refl).
    destruct (py_setitem2_cases v "info" "title" (PStr "Tasking Manager backend API"))
      as [(d & info & -> & Hi)|[e He]].
    + pose proof (docs_returns env d info Hs Hi) as Hr.
      unfold SystemDocsAPI_get in Hr.
      rewrite (bind_lift_returns _ _ _ Hs) in Hr. by rewrite Hr.
    + by rewrite He.
Qed.

Lemma docs_lets_errors_out_witness :
  SystemDocsAPI_get
    (with_swagger (Raises (Exn "RuntimeError" "Working outside of application context."))
       (sample_env (Returns PNone) (Returns tt) (Returns sample_settings)))
  = (Raises (Exn "RuntimeError" "Working outside of application context."), [])
  ∧ SystemDocsAPI_get
      (with_swagger (Returns (PDict {[ "swagger" := PStr "2.0" ]}))
         (sample_env (Returns PNone) (Returns tt) (Returns sample_settings)))
    = (Raises (Exn "KeyError" "'info'"), []).
Proof.
  split.
  - apply (proj1 (docs_lets_errors_out _)). reflexivity.
  - apply (proj1 (proj2 (docs_lets_errors_out _)) {[ "swagger" := PStr "2.0" ]});
      reflexivity.
Defined.

(** X12: the docs handler returns a document exactly when flask-swagger
    returned a dict whose ["info"] entry is a dict. *)
Theorem docs_returns_iff (env : Env) :
  (∃ (r : Response) (t : list event), SystemDocsAPI_get env = (Returns r, t))
  ↔ ∃ d info : gmap string pyval,
      swagger env = Returns (PDict d) ∧ d !! "info" = Some (PDict info).
Proof.
  split.
  - intros (r & t & H). exact (docs_returns_inv env r t H).
  - intros (d & info & Hs & Hi). eexists _, _. exact (docs_returns env d info Hs Hi).
Qed.

(** Setting the three entries a second time changes nothing. *)
Lemma described_again (d info : gmap string pyval) :
  described
    (<["info" :=
        PDict (<["version" := PStr "2.0.0"]>
                (<["description" := PStr "API endpoints for the backend"]>
                  (<["title" := PStr "Tasking Manager backend API"]> info)))]> d)
    (<["version" := PStr "2.0.0"]>
      (<["description" := PStr "API endpoints for the backend"]>
        (<["title" := PStr "Tasking Manager backend API"]> info)))
  = described d info.
Proof.
  unfold described. rewrite insert_insert_eq. do 3 f_equal.
  apply map_eq. intros k. rewrite !lookup_insert.
  repeat case_decide; congruence.
Qed.

(** X13: the docs handler is idempotent on documents.  Given the
    document of one of its own answers in place of the flask-swagger
    document, it returns that same document. *)
Theorem docs_idempotent (env : Env) (r : Response) (t : list event) :
  SystemDocsAPI_get env = (Returns r, t) →
  SystemDocsAPI_get (with_swagger (Returns (payload r)) env) = (Returns r, []).
Proof.
  intros H. destruct (docs_returns_inv env r t H) as (d & info & Hs & Hi).
  rewrite (docs_returns env d info Hs Hi) in H. injection H as <- <-.
  cbn [payload jsonify].
  rewrite (docs_returns (with_swagger (Returns (described d info)) env) _ _
             eq_refl (lookup_insert_eq _ _ _)).
  by rewrite described_again.
Qed.

Lemma docs_idempotent_witness :
  SystemDocsAPI_get
    (with_swagger
       (Returns (payload (jsonify (described sample_swag
                                     {[ "version" := PStr "0.0.0";
                                        "title" := PStr "Cool product name" ]}))))
       (sample_env (Returns PNone) (Returns tt) (Returns sample_settings)))
  = (Returns (jsonify (described sample_swag
                         {[ "version" := PStr "0.0.0";
                            "title" := PStr "Cool product name" ]})), []).
Proof.
  apply (docs_idempotent
           (sample_env (Returns PNone) (Returns tt) (Returns sample_settings))
           _ []).
  apply (docs_returns _ sample_swag
           {[ "version" := PStr "0.0.0"; "title" := PStr "Cool product name" ]});
    reflexivity.
Defined.
